(** * megashop: the static configuration module [src/app.ts]

    The module declares four [export const] bindings whose initialisers are
    literals: three object literals with string and boolean fields, and one
    bare boolean.  It is embedded as a computation over an explicit store
    (a heap of objects and the table of export bindings), so that the values
    the consumers observe, the shape of the exports and the effect of reads
    and writes made through the exported references can all be stated. *)

From Stdlib Require Import String.
From stdpp Require Import gmap strings list fin_maps.

Local Open Scope string_scope.

(** ** Values, objects and the store *)

Module Js.

Definition loc := nat.

(** The values a binding or a field can hold.  Objects are held by
    reference: two reads of the same binding give the same location. *)
Inductive value : Type :=
| VUndefined
| VBool (b : bool)
| VNumber (n : Z)
| VString (s : string)
| VRef (l : loc).

#[global] Instance value_eq_dec : EqDecision value.
Proof. solve_decision. Defined.

(** An ordinary object: its own properties, and whether it was frozen.
    An object literal creates an object that is not frozen. *)
Record object : Type := Object {
  fields : gmap string value;
  frozen : bool
}.

Record store : Type := Store {
  heap : gmap loc object;
  exports : gmap string value;
  next : loc
}.

Definition empty_store : store :=
  {| heap := ∅; exports := ∅; next := 0 |}.

Inductive error : Type :=
| SyntaxError      (* redeclared binding, or import of a missing export *)
| TypeError        (* write to a constant, a primitive or a frozen object;
                      access through undefined *)
| DanglingRef.     (* a reference to no object: the language never makes one *)

Inductive result (A : Type) : Type :=
| Ok (a : A)
| Err (e : error).
Arguments Ok {A} a.
Arguments Err {A} e.

Definition is_ok {A} (r : result A) : bool :=
  match r with Ok _ => true | Err _ => false end.

(** Module evaluation threads the store and may raise. *)
Definition M (A : Type) : Type := store -> result (A * store).

Definition ret {A} (a : A) : M A := fun st => Ok (a, st).

Definition bind {A B} (m : M A) (k : A -> M B) : M B :=
  fun st => match m st with
            | Ok (a, st') => k a st'
            | Err e => Err e
            end.

Definition typeof (v : value) : string :=
  match v with
  | VUndefined => "undefined"
  | VBool _ => "boolean"
  | VNumber _ => "number"
  | VString _ => "string"
  | VRef _ => "object"
  end.

(** A primitive scalar of the kinds the module uses. *)
Definition is_scalar (v : value) : bool :=
  match v with
  | VBool _ | VString _ => true
  | _ => false
  end.

End Js.

Import Js.

Notation "m >>= k" := (bind m k) (at level 60, right associativity).
Notation "m >> k" := (bind m (fun _ => k)) (at level 60, right associativity).

(** ** Initialisers and declarations *)

(** A scalar literal evaluates to itself. *)
Definition literal (v : value) : M value := ret v.

(** An object literal [{ k1: v1, ..., kn: vn }] allocates a fresh, unfrozen
    object, defines the properties in source order and evaluates to a
    reference to it. *)
Definition object_literal (props : list (string * value)) : M value :=
  fun st =>
    let l := next st in
    let o := {| fields := list_to_map props; frozen := false |} in
    Ok (VRef l, {| heap := <[l := o]> (heap st);
                   exports := exports st;
                   next := S l |}).

(** [export const name = init]: a name can be declared once. *)
Definition export_const (name : string) (init : M value) : M unit :=
  init >>= fun v st =>
    match exports st !! name with
    | Some _ => Err SyntaxError
    | None => Ok (tt, {| heap := heap st;
                         exports := <[name := v]> (exports st);
                         next := next st |})
    end.

(** ** The module, declaration by declaration *)

Definition SEO_CONFIG : M unit :=
  export_const "SEO_CONFIG" (object_literal [
    ("description",
     VString "MegaShop is a robust ecommerce platform built with next.js and modern technologies. It's designed for businesses who want a fast, modern, and scalable foundation for their online store.");
    ("fullName", VString "MegaShop - Your Ultimate Shopping Destination");
    ("name", VString "MegaShop");
    ("slogan", VString "Where shopping meets convenience.")
  ]).

Definition SYSTEM_CONFIG : M unit :=
  export_const "SYSTEM_CONFIG" (object_literal [
    ("redirectAfterSignIn", VString "/dashboard/uploads");
    ("redirectAfterSignUp", VString "/dashboard/uploads");
    ("repoName", VString "megashop");
    ("repoOwner", VString "durgeshkryadav");
    ("repoStars", VBool true)
  ]).

Definition ADMIN_CONFIG : M unit :=
  export_const "ADMIN_CONFIG" (object_literal [
    ("displayEmails", VBool false)
  ]).

Definition DB_DEV_LOGGER : M unit :=
  export_const "DB_DEV_LOGGER" (literal (VBool false)).

Definition app_ts : M unit :=
  SEO_CONFIG >> SYSTEM_CONFIG >> ADMIN_CONFIG >> DB_DEV_LOGGER.

(** The store once the module has been evaluated; a module that raised
    would export nothing. *)
Definition app_store : store :=
  match app_ts empty_store with
  | Ok (_, st) => st
  | Err _ => empty_store
  end.

(** ** What a consumer can do with the exports *)

(** [import { name }] followed by a use of [name]. *)
Definition read_export (st : store) (name : string) : result value :=
  match exports st !! name with
  | Some v => Ok v
  | None => Err SyntaxError
  end.

(** [v.key] on own properties: a missing property reads as [undefined],
    a read through [undefined] raises.  The prototype chain is not followed:
    the members an object or a primitive inherits from the built-in
    prototypes, and the own properties of strings, are outside this
    development, whose statements about the value of a read are about the
    fields the module declares. *)
Definition get_prop (st : store) (v : value) (key : string) : result value :=
  match v with
  | VUndefined => Err TypeError
  | VRef l =>
      match heap st !! l with
      | Some o => Ok (default VUndefined (fields o !! key))
      | None => Err DanglingRef
      end
  | _ => Ok VUndefined
  end.

(** [name.key] *)
Definition read_field (st : store) (name key : string) : result value :=
  match read_export st name with
  | Ok v => get_prop st v key
  | Err e => Err e
  end.

(** [v.key = w].  A module is strict code: a write to a property of a
    primitive or of a frozen object raises; on an ordinary object it
    succeeds, creating the property when it is missing.  Every key is
    treated as a data property: the inherited accessor [__proto__], whose
    setter changes the prototype instead, is outside this development, and
    the statements about what an assignment does exclude that key. *)
Definition set_prop (st : store) (v : value) (key : string) (w : value)
  : result store :=
  match v with
  | VUndefined => Err TypeError
  | VRef l =>
      match heap st !! l with
      | Some o =>
          if frozen o then Err TypeError
          else Ok {| heap := <[l := {| fields := <[key := w]> (fields o);
                                       frozen := false |}]> (heap st);
                     exports := exports st;
                     next := next st |}
      | None => Err DanglingRef
      end
  | _ => Err TypeError
  end.

(** [name.key = w] *)
Definition write_field (st : store) (name key : string) (w : value)
  : result store :=
  match read_export st name with
  | Ok v => set_prop st v key w
  | Err e => Err e
  end.

(** [name = w]: an imported binding is read-only and the declaration is
    [const], so the assignment always raises. *)
Definition assign_export (st : store) (name : string) (w : value)
  : result store :=
  match exports st !! name with
  | Some _ => Err TypeError
  | None => Err SyntaxError
  end.

(** The operations of a consumer that are followed here: reading an
    export, reading a field, assigning to a field and attempting to rebind
    an export.  (A consumer can do more to an exported object: [delete],
    [Object.defineProperty], [Object.freeze]; these are not followed.) *)
Inductive op : Type :=
| Import (name : string)
| Get (name key : string)
| Put (name key : string) (w : value)
| Assign (name : string) (w : value).

(** One operation: the store after it and what the consumer sees.  An
    operation that raises leaves the store as it was. *)
Definition step (st : store) (o : op) : store * result value :=
  match o with
  | Import n => (st, read_export st n)
  | Get n k => (st, read_field st n k)
  | Put n k w =>
      match write_field st n k w with
      | Ok st' => (st', Ok w)
      | Err e => (st, Err e)
      end
  | Assign n w =>
      match assign_export st n w with
      | Ok st' => (st', Ok w)
      | Err e => (st, Err e)
      end
  end.

Fixpoint run (st : store) (ops : list op) : store :=
  match ops with
  | [] => st
  | o :: ops' => run (fst (step st o)) ops'
  end.

(** Does the operation assign to the field [key] through the export [name]? *)
Definition writes_field (name key : string) (o : op) : bool :=
  match o with
  | Put n k _ => bool_decide (n = name) && bool_decide (k = key)
  | _ => false
  end.

(** ** Observations used in the statements *)

(** The own property names of the object a value refers to. *)
Definition shape (st : store) (v : value) : option (gset string) :=
  match v with
  | VRef l => dom <$> (fields <$> heap st !! l)
  | _ => None
  end.

(** A record all of whose fields are strings or booleans. *)
Definition is_scalar_record (st : store) (v : value) : bool :=
  match v with
  | VRef l =>
      match heap st !! l with
      | Some o => forallb (fun kv => is_scalar (snd kv)) (map_to_list (fields o))
      | None => false
      end
  | _ => false
  end.

(** The export [name] is a record with exactly the fields [keys], each a
    string or a boolean. *)
Definition record_export (st : store) (name : string) (keys : gset string)
  : Prop :=
  exists v, read_export st name = Ok v /\
            typeof v = "object" /\
            shape st v = Some keys /\
            is_scalar_record st v = true.

(** A field read that yields a string. *)
Definition string_field (st : store) (name key : string) : option string :=
  match read_field st name key with
  | Ok (VString s) => Some s
  | _ => None
  end.

(** No two exports refer to the same object. *)
Definition noalias (e : gmap string value) : Prop :=
  forall n n' l, e !! n = Some (VRef l) -> e !! n' = Some (VRef l) -> n = n'.

(** Every export holds a value, and an exported reference has its object. *)
Definition wf (st : store) : Prop :=
  forall n v, exports st !! n = Some v ->
    match v with
    | VUndefined => False
    | VRef l => is_Some (heap st !! l)
    | _ => True
    end.

(** No object of the heap has been frozen. *)
Definition unfrozen (st : store) : Prop :=
  map_Forall (fun _ o => frozen o = false) (heap st).

(** The exports that are bound to an object. *)
Definition record_names : gset string :=
  {[ "SEO_CONFIG"; "SYSTEM_CONFIG"; "ADMIN_CONFIG" ]}.


(** [key] is one of the fields the module declares for the record [name]. *)
Definition declared (name key : string) : bool :=
  match read_export app_store name with
  | Ok v =>
      match shape app_store v with
      | Some ks => bool_decide (key ∈ ks)
      | None => false
      end
  | Err _ => false
  end.

(** The operation is a read, an attempt to rebind, or an assignment to a
    declared field of a record. *)
Definition plain (o : op) : bool :=
  match o with
  | Put n k _ => declared n k
  | _ => true
  end.

(** ** Evaluating the module *)

Lemma app_ts_ok : app_ts empty_store = Ok (tt, app_store).
Proof. vm_compute. reflexivity. Qed.

Lemma app_exports :
  exports app_store =
  <["DB_DEV_LOGGER" := VBool false]>
    (<["ADMIN_CONFIG" := VRef 2]>
       (<["SYSTEM_CONFIG" := VRef 1]>
          (<["SEO_CONFIG" := VRef 0]> ∅))).
Proof. reflexivity. Qed.

Lemma app_exports_cases n v :
  exports app_store !! n = Some v ->
  (n = "SEO_CONFIG" /\ v = VRef 0) \/
  (n = "SYSTEM_CONFIG" /\ v = VRef 1) \/
  (n = "ADMIN_CONFIG" /\ v = VRef 2) \/
  (n = "DB_DEV_LOGGER" /\ v = VBool false).
Proof.
  rewrite app_exports.
  repeat (rewrite lookup_insert; case_decide; [naive_solver|]).
  by rewrite lookup_empty.
Qed.

Lemma app_noalias : noalias (exports app_store).
Proof.
  intros n n' l Hn Hn'.
  apply app_exports_cases in Hn as [[-> Hl]|[[-> Hl]|[[-> Hl]|[-> Hl]]]];
    apply app_exports_cases in Hn' as [[-> Hl']|[[-> Hl']|[[-> Hl']|[-> Hl']]]];
    congruence.
Qed.

Lemma app_wf : wf app_store.
Proof.
  intros n v Hn.
  apply app_exports_cases in Hn as [[_ ->]|[[_ ->]|[[_ ->]|[_ ->]]]];
    try done; vm_compute; eauto.
Qed.

(** ** Consumer operations and the store *)

Lemma set_prop_exports st v k w st' :
  set_prop st v k w = Ok st' -> exports st' = exports st.
Proof.
  unfold set_prop. intros H.
  destruct v as [| | | |l]; try discriminate.
  destruct (heap st !! l) as [o|]; [|discriminate].
  destruct (frozen o); [discriminate|].
  by inversion H.
Qed.

Lemma step_exports st o : exports (fst (step st o)) = exports st.
Proof.
  destruct o as [n|n k|n k w|n w]; simpl; try reflexivity.
  - unfold write_field. destruct (read_export st n) as [v|e]; [|reflexivity].
    destruct (set_prop st v k w) as [st'|e] eqn:Hset; [|reflexivity].
    simpl. by eapply set_prop_exports.
  - unfold assign_export. by destruct (exports st !! n).
Qed.

Lemma run_exports ops : forall st, exports (run st ops) = exports st.
Proof.
  induction ops as [|o ops IH]; intros st; simpl; [reflexivity|].
  by rewrite IH, step_exports.
Qed.

Lemma read_export_run st ops n :
  read_export (run st ops) n = read_export st n.
Proof. unfold read_export. by rewrite run_exports. Qed.

Lemma set_prop_heap st v k w st' l :
  set_prop st v k w = Ok st' ->
  is_Some (heap st !! l) -> is_Some (heap st' !! l).
Proof.
  unfold set_prop. intros H Hl.
  destruct v as [| | | |l0]; try discriminate.
  destruct (heap st !! l0) as [o|] eqn:Ho; [|discriminate].
  destruct (frozen o); [discriminate|].
  inversion H; subst; simpl.
  rewrite lookup_insert. case_decide; eauto.
Qed.

Lemma step_wf st o : wf st -> wf (fst (step st o)).
Proof.
  intros Hwf n v. rewrite step_exports. intros Hn.
  specialize (Hwf n v Hn).
  destruct v as [| | | |l]; try done.
  destruct o as [n0|n0 k|n0 k w|n0 w]; simpl; try done.
  - unfold write_field. destruct (read_export st n0) as [v0|e]; [|done].
    destruct (set_prop st v0 k w) as [st'|e] eqn:Hset; [|done].
    simpl. by eapply set_prop_heap.
  - unfold assign_export. by destruct (exports st !! n0).
Qed.

Lemma run_wf ops : forall st, wf st -> wf (run st ops).
Proof.
  induction ops as [|o ops IH]; intros st Hwf; simpl; [done|].
  by apply IH, step_wf.
Qed.

(** In a well-formed store every read through an export returns. *)
Lemma wf_reads st n :
  wf st -> is_Some (exports st !! n) ->
  exists v, read_export st n = Ok v /\
            forall k, exists w, get_prop st v k = Ok w.
Proof.
  intros Hwf [v Hv]. exists v. unfold read_export. rewrite Hv.
  split; [reflexivity|]. intros k.
  specialize (Hwf n v Hv). unfold get_prop.
  destruct v as [| | | |l]; try done; eauto.
  destruct Hwf as [o ->]. eauto.
Qed.

(** A write through one export is not seen through another field or
    another export, as long as no two exports share an object. *)
Lemma step_read_field st o n k :
  noalias (exports st) -> writes_field n k o = false ->
  read_field (fst (step st o)) n k = read_field st n k.
Proof.
  intros Hna Hw.
  destruct o as [n0|n0 k0|n0 k0 w|n0 w]; simpl; try reflexivity.
  - unfold write_field.
    destruct (read_export st n0) as [v0|e] eqn:Hr0; [|reflexivity].
    destruct (set_prop st v0 k0 w) as [st'|e] eqn:Hset; [|reflexivity].
    simpl. unfold read_field, read_export.
    rewrite (set_prop_exports _ _ _ _ _ Hset).
    destruct (exports st !! n) as [v|] eqn:Hn; [|reflexivity].
    unfold set_prop in Hset.
    destruct v0 as [| | | |l0]; try discriminate.
    destruct (heap st !! l0) as [o0|] eqn:Ho0; [|discriminate].
    destruct (frozen o0); [discriminate|].
    inversion Hset; subst; clear Hset.
    destruct v as [| | | |l]; try reflexivity.
    simpl. rewrite lookup_insert. case_decide as Hl; [|reflexivity].
    subst l0. rewrite Ho0. simpl.
    unfold read_export in Hr0.
    destruct (exports st !! n0) as [v0|] eqn:Hn0; [|discriminate].
    inversion Hr0; subst v0.
    assert (n = n0) as -> by (eapply Hna; eauto).
    simpl in Hw. rewrite bool_decide_eq_true_2 in Hw by reflexivity.
    simpl in Hw. apply bool_decide_eq_false_1 in Hw.
    by rewrite lookup_insert_ne.
  - unfold assign_export. by destruct (exports st !! n0).
Qed.


Lemma record_names_cases n :
  n ∈ record_names ->
  exists l, exports app_store !! n = Some (VRef l).
Proof.
  unfold record_names. rewrite !elem_of_union, !elem_of_singleton.
  intros [[->| ->]| ->]; eexists; reflexivity.
Qed.

(** A declared field belongs to one of the three records, and is an own
    property of its object. *)
Lemma declared_inv n k :
  declared n k = true ->
  n ∈ record_names /\
  exists l o, exports app_store !! n = Some (VRef l) /\
              heap app_store !! l = Some o /\ k ∈ dom (fields o).
Proof.
  unfold declared, read_export.
  destruct (exports app_store !! n) as [v|] eqn:Hn; [|discriminate].
  intros Hd.
  assert (Hrec : n ∈ record_names).
  { unfold record_names.
    apply app_exports_cases in Hn as [[-> _]|[[-> _]|[[-> _]|[_ ->]]]];
      [set_solver..|discriminate Hd]. }
  split; [exact Hrec|].
  destruct v as [| | | |l]; try discriminate Hd.
  simpl in Hd. destruct (heap app_store !! l) as [o|] eqn:Ho;
    [|discriminate Hd].
  simpl in Hd. apply bool_decide_eq_true_1 in Hd.
  exists l, o. split; [reflexivity|]. split; [exact Ho | exact Hd].
Qed.

Lemma app_unfrozen : unfrozen app_store.
Proof.
  apply (bool_decide_unpack _). vm_compute. exact I.
Qed.

Lemma step_unfrozen st o : unfrozen st -> unfrozen (fst (step st o)).
Proof.
  intros Hu.
  destruct o as [n|n k|n k w|n w]; simpl; try done.
  - unfold write_field. destruct (read_export st n) as [v|e]; [|done].
    destruct v as [| | | |l]; simpl; try done.
    destruct (heap st !! l) as [o|] eqn:Ho; [|done].
    destruct (frozen o); [done|]. simpl.
    by apply map_Forall_insert_2.
  - unfold assign_export. by destruct (exports st !! n).
Qed.

Lemma run_unfrozen ops : forall st, unfrozen st -> unfrozen (run st ops).
Proof.
  induction ops as [|o ops IH]; intros st Hu; simpl; [done|].
  by apply IH, step_unfrozen.
Qed.

(** After any operations a record export still refers to an object, which
    no operation has frozen. *)
Lemma run_record ops n :
  n ∈ record_names ->
  exists l o, exports (run app_store ops) !! n = Some (VRef l) /\
              heap (run app_store ops) !! l = Some o /\ frozen o = false.
Proof.
  intros Hn.
  destruct (record_names_cases n Hn) as [l Hl].
  assert (He : exports (run app_store ops) !! n = Some (VRef l))
    by (by rewrite run_exports).
  destruct (run_wf ops app_store app_wf n (VRef l) He) as [o Ho].
  exists l, o. repeat split; [done..|].
  by apply (run_unfrozen ops app_store app_unfrozen l o).
Qed.

(** Assignments to declared fields add no key and remove none. *)
Lemma step_plain_shape st o :
  exports st = exports app_store ->
  (forall l, shape st (VRef l) = shape app_store (VRef l)) ->
  plain o = true ->
  forall l, shape (fst (step st o)) (VRef l) = shape app_store (VRef l).
Proof.
  intros Hex Hsh Hp l. unfold shape in *.
  destruct o as [n|n k|n k w|n w]; simpl; try apply Hsh.
  - simpl in Hp. apply declared_inv in Hp as (_ & l0 & o0 & He & Ho0 & Hk).
    unfold write_field, read_export. rewrite Hex, He. simpl.
    pose proof (Hsh l0) as Hl0. rewrite Ho0 in Hl0.
    destruct (heap st !! l0) as [o|] eqn:Ho; [|apply Hsh].
    simpl in Hl0. injection Hl0 as Hdom.
    destruct (frozen o); [apply Hsh|].
    simpl. rewrite lookup_insert. case_decide as Hl; [|apply Hsh].
    subst l. simpl. rewrite Ho0. simpl. f_equal.
    rewrite dom_insert_L, Hdom.
    apply subseteq_union_1_L. by apply singleton_subseteq_l.
  - unfold assign_export. destruct (exports st !! n); apply Hsh.
Qed.

Lemma run_plain_shape ops : forall st,
  exports st = exports app_store ->
  (forall l, shape st (VRef l) = shape app_store (VRef l)) ->
  forallb plain ops = true ->
  forall l, shape (run st ops) (VRef l) = shape app_store (VRef l).
Proof.
  induction ops as [|o ops IH]; intros st Hex Hsh Hp l; simpl; [apply Hsh|].
  simpl in Hp. apply andb_true_iff in Hp as [Ho Hops].
  apply IH; [by rewrite step_exports | by apply step_plain_shape | done].
Qed.

(** ** The exported values *)

(** C1: [SYSTEM_CONFIG.redirectAfterSignIn] is exactly the string
    "/dashboard/uploads". *)
Theorem redirectAfterSignIn_value :
  read_field app_store "SYSTEM_CONFIG" "redirectAfterSignIn"
  = Ok (VString "/dashboard/uploads").
Proof. reflexivity. Qed.

(** C2: [DB_DEV_LOGGER] is exactly the boolean [false]. *)
Theorem DB_DEV_LOGGER_value :
  read_export app_store "DB_DEV_LOGGER" = Ok (VBool false).
Proof. reflexivity. Qed.

(** C3: [ADMIN_CONFIG.displayEmails] is exactly the boolean [false]. *)
Theorem displayEmails_value :
  read_field app_store "ADMIN_CONFIG" "displayEmails" = Ok (VBool false).
Proof. reflexivity. Qed.

(** C4: the branding strings of [SEO_CONFIG]: [name], [slogan] and
    [fullName] are the stated literals, and [description] is the literal of
    the source, which begins with the stated sentence. *)
Theorem SEO_CONFIG_branding :
  string_field app_store "SEO_CONFIG" "name" = Some "MegaShop" /\
  string_field app_store "SEO_CONFIG" "slogan"
    = Some "Where shopping meets convenience." /\
  string_field app_store "SEO_CONFIG" "fullName"
    = Some "MegaShop - Your Ultimate Shopping Destination" /\
  exists d,
    string_field app_store "SEO_CONFIG" "description" = Some d /\
    d = "MegaShop is a robust ecommerce platform built with next.js and modern technologies. It's designed for businesses who want a fast, modern, and scalable foundation for their online store." /\
    String.prefix
      "MegaShop is a robust ecommerce platform built with next.js and modern technologies."
      d = true.
Proof.
  repeat split. eexists. repeat split.
Qed.

(** C8: the two redirect paths coincide, both being "/dashboard/uploads". *)
Theorem redirects_coincide :
  read_field app_store "SYSTEM_CONFIG" "redirectAfterSignIn"
  = read_field app_store "SYSTEM_CONFIG" "redirectAfterSignUp" /\
  read_field app_store "SYSTEM_CONFIG" "redirectAfterSignUp"
  = Ok (VString "/dashboard/uploads").
Proof. split; reflexivity. Qed.

(** C9: [SYSTEM_CONFIG.repoStars] is the boolean [true]; it is not a
    number, whatever number a consumer expects. *)
Theorem repoStars_is_flag :
  exists v,
    read_field app_store "SYSTEM_CONFIG" "repoStars" = Ok v /\
    v = VBool true /\
    typeof v = "boolean" /\
    typeof v <> "number" /\
    forall z : Z, v <> VNumber z.
Proof.
  exists (VBool true). repeat split; discriminate.
Qed.

(** C10: [SEO_CONFIG.fullName] is [SEO_CONFIG.name] followed by
    " - Your Ultimate Shopping Destination", so it starts with the name. *)
Theorem fullName_extends_name :
  exists name full,
    string_field app_store "SEO_CONFIG" "name" = Some name /\
    string_field app_store "SEO_CONFIG" "fullName" = Some full /\
    full = String.append name " - Your Ultimate Shopping Destination" /\
    String.prefix name full = true.
Proof.
  do 2 eexists. repeat split.
Qed.

(** ** The shape of the exports *)

(** C5, as stated, fails: the module has four exports, but [DB_DEV_LOGGER]
    is a bare boolean and not a record, so not every export is a record of
    scalar fields. *)
Lemma DB_DEV_LOGGER_not_a_record :
  read_export app_store "DB_DEV_LOGGER" = Ok (VBool false) /\
  typeof (VBool false) = "boolean" /\
  shape app_store (VBool false) = None /\
  ~ (forall n v, read_export app_store n = Ok v ->
                 is_scalar_record app_store v = true).
Proof.
  repeat split.
  intros H. specialize (H "DB_DEV_LOGGER" (VBool false) eq_refl).
  discriminate H.
Qed.

(** C5, amended: the module has exactly four named exports; [SEO_CONFIG],
    [SYSTEM_CONFIG] and [ADMIN_CONFIG] are records with the listed fields,
    each a string or a boolean, and [DB_DEV_LOGGER] is itself a boolean
    scalar. *)
Theorem exports_surface :
  dom (exports app_store)
  = {[ "SEO_CONFIG"; "SYSTEM_CONFIG"; "ADMIN_CONFIG"; "DB_DEV_LOGGER" ]} /\
  size (exports app_store) = 4 /\
  record_export app_store "SEO_CONFIG"
    {[ "description"; "fullName"; "name"; "slogan" ]} /\
  record_export app_store "SYSTEM_CONFIG"
    {[ "redirectAfterSignIn"; "redirectAfterSignUp"; "repoName";
       "repoOwner"; "repoStars" ]} /\
  record_export app_store "ADMIN_CONFIG" {[ "displayEmails" ]} /\
  exists b, read_export app_store "DB_DEV_LOGGER" = Ok (VBool b) /\
            is_scalar (VBool b) = true /\
            is_scalar_record app_store (VBool b) = false.
Proof.
  split; [reflexivity|]. split; [reflexivity|].
  split; [eexists; repeat split; reflexivity|].
  split; [eexists; repeat split; reflexivity|].
  split; [eexists; repeat split; reflexivity|].
  exists false. repeat split.
Qed.

(** ** Totality *)

(** C6: evaluating the module returns (its initialisers are literals: the
    only effects are the allocation of the three objects and the four
    declarations), and every read of an exported name, and of any field
    through it, returns a value without raising, whatever the consumers
    have done before. *)
Theorem module_never_fails :
  app_ts empty_store = Ok (tt, app_store) /\
  forall (ops : list op) (n : string),
    n ∈ dom (exports app_store) ->
    exists v, read_export (run app_store ops) n = Ok v /\
              forall k, exists w, read_field (run app_store ops) n k = Ok w.
Proof.
  split; [apply app_ts_ok|].
  intros ops n Hn. apply elem_of_dom in Hn.
  destruct (wf_reads (run app_store ops) n) as (v & Hv & Hk).
  - apply run_wf, app_wf.
  - by rewrite run_exports.
  - exists v. split; [done|]. intros k. unfold read_field. rewrite Hv. apply Hk.
Qed.

Lemma module_never_fails_witness :
  "SYSTEM_CONFIG" ∈ dom (exports app_store) /\
  exists v,
    read_export
      (run app_store [Put "SYSTEM_CONFIG" "repoStars" VUndefined]) "SYSTEM_CONFIG"
    = Ok v /\
    forall k, exists w,
      read_field
        (run app_store [Put "SYSTEM_CONFIG" "repoStars" VUndefined])
        "SYSTEM_CONFIG" k
      = Ok w.
Proof.
  assert (H : "SYSTEM_CONFIG" ∈ dom (exports app_store))
    by (apply elem_of_dom; eexists; reflexivity).
  split; [exact H|].
  exact (proj2 module_never_fails
           [Put "SYSTEM_CONFIG" "repoStars" VUndefined] "SYSTEM_CONFIG" H).
Defined.

(** ** Stability of reads *)




(** ** What the consumers can and cannot change *)

(** X1: whatever the consumers do, [DB_DEV_LOGGER] reads as [false]: being
    a boolean and not an object, it offers nothing a consumer could
    change. *)
Theorem DB_DEV_LOGGER_constant (ops : list op) :
  read_export (run app_store ops) "DB_DEV_LOGGER" = Ok (VBool false).
Proof. by rewrite read_export_run. Qed.

(** X2: after any reads, field assignments and rebinding attempts, setting
    a property other than [__proto__] through [DB_DEV_LOGGER], and
    rebinding [DB_DEV_LOGGER], both raise a type error and leave the store
    as it was. *)
Theorem DB_DEV_LOGGER_write_rejected (ops : list op) (k : string) (w : value) :
  k <> "__proto__" ->
  step (run app_store ops) (Put "DB_DEV_LOGGER" k w)
  = (run app_store ops, Err TypeError) /\
  step (run app_store ops) (Assign "DB_DEV_LOGGER" w)
  = (run app_store ops, Err TypeError).
Proof.
  intros _.
  assert (He : exports (run app_store ops) !! "DB_DEV_LOGGER"
               = Some (VBool false)) by (by rewrite run_exports).
  split; simpl.
  - unfold write_field, read_export. by rewrite He.
  - unfold assign_export. by rewrite He.
Qed.

Lemma DB_DEV_LOGGER_write_rejected_witness :
  "enabled" <> "__proto__" /\
  step (run app_store [Put "SEO_CONFIG" "name" (VString "Other")])
       (Put "DB_DEV_LOGGER" "enabled" (VBool true))
  = (run app_store [Put "SEO_CONFIG" "name" (VString "Other")],
     Err TypeError) /\
  step (run app_store [Put "SEO_CONFIG" "name" (VString "Other")])
       (Assign "DB_DEV_LOGGER" (VBool true))
  = (run app_store [Put "SEO_CONFIG" "name" (VString "Other")],
     Err TypeError).
Proof.
  assert (H : "enabled" <> "__proto__") by discriminate.
  split; [exact H|].
  exact (DB_DEV_LOGGER_write_rejected
           [Put "SEO_CONFIG" "name" (VString "Other")]
           "enabled" (VBool true) H).
Defined.

(** X3: after any reads, field assignments and rebinding attempts, an
    assignment to a declared field of one of the three records succeeds,
    and a read of that field then yields the assigned value. *)
Theorem record_write_then_read (ops : list op) (n k : string) (w : value) :
  declared n k = true ->
  snd (step (run app_store ops) (Put n k w)) = Ok w /\
  read_field (fst (step (run app_store ops) (Put n k w))) n k = Ok w.
Proof.
  intros Hd. apply declared_inv in Hd as [Hn _].
  destruct (run_record ops n Hn) as (l & o & He & Ho & Hf).
  simpl. unfold write_field, read_export. rewrite He. simpl.
  rewrite Ho, Hf. simpl. split; [reflexivity|].
  unfold read_field, read_export. simpl. rewrite He. simpl.
  rewrite lookup_insert_eq. simpl. by rewrite lookup_insert_eq.
Qed.

Lemma record_write_then_read_witness :
  declared "ADMIN_CONFIG" "displayEmails" = true /\
  snd (step (run app_store [Put "ADMIN_CONFIG" "displayEmails" (VBool true)])
            (Put "ADMIN_CONFIG" "displayEmails" (VBool false)))
  = Ok (VBool false) /\
  read_field
    (fst (step (run app_store [Put "ADMIN_CONFIG" "displayEmails" (VBool true)])
               (Put "ADMIN_CONFIG" "displayEmails" (VBool false))))
    "ADMIN_CONFIG" "displayEmails"
  = Ok (VBool false).
Proof.
  assert (H : declared "ADMIN_CONFIG" "displayEmails" = true) by reflexivity.
  split; [exact H|].
  exact (record_write_then_read
           [Put "ADMIN_CONFIG" "displayEmails" (VBool true)]
           "ADMIN_CONFIG" "displayEmails" (VBool false) H).
Defined.

(** X4: the three records are three different objects: after any reads,
    field assignments and rebinding attempts, an assignment to the field
    [k] through the export [n] changes no read of any other declared
    field, of the same export or of another one. *)
Theorem write_changes_no_other_field
  (ops : list op) (n k n' k' : string) (w : value) :
  declared n' k' = true ->
  n <> n' \/ k <> k' ->
  read_field (fst (step (run app_store ops) (Put n k w))) n' k'
  = read_field (run app_store ops) n' k'.
Proof.
  intros _ Hne. apply step_read_field.
  - rewrite run_exports. apply app_noalias.
  - simpl. destruct Hne as [Hne|Hne].
    + by rewrite (bool_decide_eq_false_2 _ Hne).
    + rewrite (bool_decide_eq_false_2 (k = k') Hne). apply andb_false_r.
Qed.

Lemma write_changes_no_other_field_witness :
  declared "SYSTEM_CONFIG" "repoName" = true /\
  ("SEO_CONFIG" <> "SYSTEM_CONFIG" \/ "name" <> "repoName") /\
  read_field
    (fst (step (run app_store [Put "SYSTEM_CONFIG" "repoName" (VString "x")])
               (Put "SEO_CONFIG" "name" (VString "y"))))
    "SYSTEM_CONFIG" "repoName"
  = read_field (run app_store [Put "SYSTEM_CONFIG" "repoName" (VString "x")])
               "SYSTEM_CONFIG" "repoName".
Proof.
  assert (Hd : declared "SYSTEM_CONFIG" "repoName" = true) by reflexivity.
  assert (H : "SEO_CONFIG" <> "SYSTEM_CONFIG" \/ "name" <> "repoName")
    by (left; discriminate).
  split; [exact Hd|]. split; [exact H|].
  exact (write_changes_no_other_field
           [Put "SYSTEM_CONFIG" "repoName" (VString "x")]
           "SEO_CONFIG" "name" "SYSTEM_CONFIG" "repoName" (VString "y") Hd H).
Defined.

(** X5: the records keep their declared fields but are not sealed: after
    any reads, rebinding attempts and assignments to declared fields, a
    record has exactly the keys the module declares for it, and an
    assignment through it to a key [k] other than [__proto__] leaves it
    with those keys and [k], so a key the record lacks is added. *)
Theorem record_write_extends_shape
  (ops : list op) (n k : string) (w : value) :
  forallb plain ops = true ->
  n ∈ record_names ->
  k <> "__proto__" ->
  exists v ks,
    read_export (run app_store ops) n = Ok v /\
    shape app_store v = Some ks /\
    shape (run app_store ops) v = Some ks /\
    shape (fst (step (run app_store ops) (Put n k w))) v = Some ({[ k ]} ∪ ks).
Proof.
  intros Hp Hn _.
  destruct (run_record ops n Hn) as (l & o & He & Ho & Hf).
  pose proof (run_plain_shape ops app_store eq_refl (fun _ => eq_refl) Hp l)
    as Hsh.
  exists (VRef l), (dom (fields o)).
  unfold read_export. rewrite He. split; [reflexivity|].
  rewrite <- Hsh. simpl. rewrite Ho. do 2 (split; [reflexivity|]).
  unfold write_field, read_export. rewrite He. simpl. rewrite Ho, Hf. simpl.
  rewrite lookup_insert_eq. simpl. by rewrite dom_insert_L.
Qed.

Lemma record_write_extends_shape_witness :
  forallb plain [Put "ADMIN_CONFIG" "displayEmails" (VBool true);
                 Get "ADMIN_CONFIG" "displayEmails"] = true /\
  "ADMIN_CONFIG" ∈ record_names /\
  "displayPhones" <> "__proto__" /\
  exists v ks,
    read_export
      (run app_store [Put "ADMIN_CONFIG" "displayEmails" (VBool true);
                      Get "ADMIN_CONFIG" "displayEmails"]) "ADMIN_CONFIG"
    = Ok v /\
    shape app_store v = Some ks /\
    shape (run app_store [Put "ADMIN_CONFIG" "displayEmails" (VBool true);
                          Get "ADMIN_CONFIG" "displayEmails"]) v
    = Some ks /\
    shape (fst (step (run app_store
                        [Put "ADMIN_CONFIG" "displayEmails" (VBool true);
                         Get "ADMIN_CONFIG" "displayEmails"])
                     (Put "ADMIN_CONFIG" "displayPhones" (VBool true)))) v
    = Some ({[ "displayPhones" ]} ∪ ks).
Proof.
  assert (Hp : forallb plain [Put "ADMIN_CONFIG" "displayEmails" (VBool true);
                              Get "ADMIN_CONFIG" "displayEmails"] = true)
    by reflexivity.
  assert (Hn : "ADMIN_CONFIG" ∈ record_names)
    by (apply (bool_decide_unpack _); vm_compute; exact I).
  assert (Hk : "displayPhones" <> "__proto__") by discriminate.
  split; [exact Hp|]. split; [exact Hn|]. split; [exact Hk|].
  exact (record_write_extends_shape
           [Put "ADMIN_CONFIG" "displayEmails" (VBool true);
            Get "ADMIN_CONFIG" "displayEmails"]
           "ADMIN_CONFIG" "displayPhones" (VBool true) Hp Hn Hk).
Defined.

(** X6: the repository coordinates in [SYSTEM_CONFIG]: [repoName] is
    "megashop" and [repoOwner] is "durgeshkryadav". *)
Theorem repo_coordinates :
  string_field app_store "SYSTEM_CONFIG" "repoName" = Some "megashop" /\
  string_field app_store "SYSTEM_CONFIG" "repoOwner" = Some "durgeshkryadav".
Proof. split; reflexivity. Qed.
